(** * The note route: [app/routes/users+/$username_+/notes.$noteId.tsx]

    A shallow embedding of the route module of the exercise
    [04.mutations/02.problem.actions]: the [loader] that reads one note
    from the in-memory store and throws a 404 response when there is
    none, the [NoteRoute] component that renders the loaded note, and the
    [ErrorBoundary] of the accompanying lesson text, which picks a message
    from the status of a thrown response.  The lesson text also shows a
    loader for a sandwich route and the helper [requireUser]; they are
    embedded in [Sandwiches]. *)

From Stdlib Require Import ZArith Ascii.
From stdpp Require Import base option strings gmap list.

Open Scope Z_scope.

(** ** Responses

    A [Response] as the handlers build it: a status code and a body.  The
    body of a thrown response is its message text; the body of a [json]
    response is the data it serialises. *)

Record Response (B : Type) : Type := mkResponse { status : Z; body : B }.
Arguments mkResponse {B} _ _.
Arguments status {B} _.
Arguments body {B} _.

(** [json(data)] of [@remix-run/node]: a response carrying [data], status 200. *)
Definition json {B : Type} (data : B) : Response B :=
  {| status := 200; body := data |}.

(** ** The store, [db] of [#app/utils/db.server.ts] *)

Module Db.

(** Modelled from the spec: the schema of the store ([db.server.ts]) is
    missing from the sources.  A stored note has an identifier, a title
    and a content (spec, section 3); whatever other fields the store
    keeps are collected, by name, in [other]. *)
Record Note : Type := mkNote {
  id : string;
  title : string;
  content : string;
  other : gmap string string;
}.

(** Modelled from the spec: the state of the missing store, as far as this
    route reads it: the stored notes, in insertion order. *)
Record Database : Type := mkDatabase { note : list Note }.

(** The query object of the source, [{ where: { id: { equals: v } } }].
    [v] is [params.noteId], a string or [undefined]. *)
Record Query : Type := mkQuery { where_id_equals : option string }.

(** Modelled from the spec: the [equals] comparator of the missing store.
    The expected value is compared with the stored identifier, which is
    always a string; [undefined] equals no string. *)
Definition equals (expected : option string) (actual : string) : bool :=
  match expected with
  | Some e => bool_decide (e = actual)
  | None => false
  end.

Definition matches (q : Query) (n : Note) : bool :=
  equals (where_id_equals q) (id n).

(** Modelled from the spec: [db.note.findFirst] of the missing store, "a
    point-read-by-identifier operation returning zero or one record"
    (spec, section 6): the first stored note the query matches, [null]
    (here [None]) when there is none.  The store is read, never written. *)
Fixpoint first_match (q : Query) (ns : list Note) : option Note :=
  match ns with
  | [] => None
  | n :: ns' => if matches q n then Some n else first_match q ns'
  end.

(** The spec's invariant on the store: an identifier names at most one note. *)
Definition unique_ids (d : Database) : Prop := NoDup (id <$> note d).

(** The identifier [key] resolves to no record: no stored note carries it. *)
Definition absent (key : option string) (d : Database) : Prop :=
  ∀ n, n ∈ note d → key ≠ Some (id n).

End Db.

(** ** Handlers: computations over the store that return or throw

    A handler runs against the store, which it may read or change, and
    either returns a value or throws a response. *)

Inductive Completion (A : Type) : Type :=
| Return (a : A)
| Throw (r : Response string).
Arguments Return {A} _.
Arguments Throw {A} _.

Definition Handler (A : Type) : Type := Db.Database → Completion A * Db.Database.

Definition hret {A} (a : A) : Handler A := λ d, (Return a, d).

Definition hthrow {A} (r : Response string) : Handler A := λ d, (Throw r, d).

Definition hbind {A B} (m : Handler A) (k : A → Handler B) : Handler B :=
  λ d, match m d with
       | (Return a, d') => k a d'
       | (Throw r, d') => (Throw r, d')
       end.

Notation "'let*' x ':=' m 'in' k" := (hbind m (λ x, k))
  (at level 10, x name, m at level 100, k at level 200).

(** Modelled from the spec: [db.note.findFirst(query)] as a handler step.
    It is a point read: it yields the first match and hands the store on
    as it received it. *)
Definition db_note_findFirst (q : Db.Query) : Handler (option Db.Note) :=
  λ d, (Return (Db.first_match q (Db.note d)), d).

(** Modelled from the spec: [invariantResponse] of [#app/utils/misc.ts],
    missing from the sources.  When the condition is falsy it throws a
    response with the given message and status ("raises a typed not found
    signal carrying a human-readable message and a status code"); otherwise
    it returns, and the condition is known to hold afterwards.  The
    condition here is an object or [null], truthy exactly when present. *)
Definition invariantResponse {A} (condition : option A) (message : string)
    (init_status : Z) : Handler A :=
  match condition with
  | Some a => hret a
  | None => hthrow {| status := init_status; body := message |}
  end.

(** ** The loader *)

(** The argument of a loader; only [params], the route parameters taken
    from the request path, is used.  A parameter that the path does not
    supply reads as [undefined]. *)
Record DataFunctionArgs : Type := mkArgs { params : gmap string string }.

(** What the loader sends: [{ note: { title, content } }]. *)
Record NoteData : Type := mkNoteData { title : string; content : string }.
Record LoaderData : Type := mkLoaderData { note : NoteData }.

Definition loader (args : DataFunctionArgs) : Handler (Response LoaderData) :=
  let* found := db_note_findFirst
                  {| Db.where_id_equals := params args !! "noteId" |} in
  let* note := invariantResponse found "Note not found" 404 in
  hret (json {| note := {| title := Db.title note; content := Db.content note |} |}).

(** ** Views

    The element trees the components return.  An element is a text node or
    an element with a type (a host tag such as [h2], or a component such as
    [Button], left unexpanded as in the source), a props object, and
    children. *)

Inductive PropValue : Type :=
| PStr (s : string)
| PBool (b : bool).

Inductive ElementType : Type :=
| Host (tag : string)
| Component (name : string).

#[local] Set Warnings "-register-all".
Inductive Element : Type :=
| Text (s : string)
| Elem (type : ElementType) (props : gmap string PropValue)
       (children : list Element).

#[global] Instance PropValue_eq_dec : EqDecision PropValue.
Proof. solve_decision. Defined.

#[global] Instance ElementType_eq_dec : EqDecision ElementType.
Proof. solve_decision. Defined.

(** The text an element shows: the text nodes below it, in order. *)
Fixpoint textContent (e : Element) : string :=
  match e with
  | Text s => s
  | Elem _ _ cs => foldr (λ c acc, textContent c +:+ acc) "" cs
  end.

(** All the elements of a tree, the root first, each with the types of its
    ancestors (nearest first). *)
Fixpoint descendants (up : list ElementType) (e : Element)
    : list (list ElementType * Element) :=
  match e with
  | Text _ => [(up, e)]
  | Elem t _ cs => (up, e) :: flat_map (descendants (t :: up)) cs
  end.

Definition elementType (e : Element) : option ElementType :=
  match e with
  | Text _ => None
  | Elem t _ _ => Some t
  end.

Definition elementProps (e : Element) : gmap string PropValue :=
  match e with
  | Text _ => ∅
  | Elem _ ps _ => ps
  end.

Definition elementChildren (e : Element) : list Element :=
  match e with
  | Text _ => []
  | Elem _ _ cs => cs
  end.

(** The class names of an element: its [className] split at spaces. *)
Definition classList (e : Element) : list string :=
  match elementProps e !! "className" with
  | Some (PStr s) => String.words s
  | _ => []
  end.

(** ** What a component reads while it renders *)

(** What [isRouteErrorResponse] looks at: the value [useRouteError]
    yields is a thrown response, some other thrown value, or nothing. *)
Inductive RouteError : Type :=
| ErrorResponse (r : Response string)
| OtherError (message : string)
| NoError.

Record RouteContext : Type := mkRouteContext {
  loaderData : LoaderData;
  routeError : RouteError;
}.

Definition useLoaderData (ctx : RouteContext) : LoaderData := loaderData ctx.

Definition useRouteError (ctx : RouteContext) : RouteError := routeError ctx.

Definition isRouteErrorResponse (error : RouteError) : bool :=
  match error with
  | ErrorResponse _ => true
  | _ => false
  end.

(** ** The components *)

Section Components.

(** [floatingToolbarClassName] of [#app/components/floating-toolbar.tsx],
    a constant that is not part of the sources. *)
Variable floatingToolbarClassName : string.

Definition NoteRoute (ctx : RouteContext) : Element :=
  let data := useLoaderData ctx in
  Elem (Host "div") {[ "className" := PStr "absolute inset-0 flex flex-col px-10" ]}
    [ Elem (Host "h2") {[ "className" := PStr "mb-2 pt-12 text-h2 lg:mb-6" ]}
        [ Text (title (note data)) ];
      Elem (Host "div") {[ "className" := PStr "overflow-y-auto pb-24" ]}
        [ Elem (Host "p")
            {[ "className" := PStr "whitespace-break-spaces text-sm md:text-lg" ]}
            [ Text (content (note data)) ] ];
      Elem (Host "div") {[ "className" := PStr floatingToolbarClassName ]}
        [ Elem (Component "Button") {[ "variant" := PStr "destructive" ]}
            [ Text "Delete" ];
          Elem (Component "Button") {[ "asChild" := PBool true ]}
            [ Elem (Component "Link") {[ "to" := PStr "edit" ]}
                [ Text "Edit" ] ] ] ].

End Components.

Definition ErrorBoundary (ctx : RouteContext) : Element :=
  let error := useRouteError ctx in
  match error with
  | ErrorResponse r =>
      if bool_decide (status r = 404) then Elem (Host "p") ∅ [ Text "Not Found" ]
      else if bool_decide (status r = 401) then Elem (Host "p") ∅ [ Text "Unauthorized" ]
      else Elem (Host "p") ∅ [ Text "Something went wrong" ]
  | _ => Elem (Host "p") ∅ [ Text "Something went wrong" ]
  end.

(** ** Reading a view *)

(** The elements of a given type in a view, in document order, each with
    the types of its ancestors. *)
Definition findByType (t : ElementType) (view : Element)
    : list (list ElementType * Element) :=
  filter (λ p, elementType p.2 = Some t) (descendants [] view).

(** A form around an element, which would make a button inside it submit. *)
Definition isForm (t : ElementType) : bool :=
  bool_decide (t = Host "form") || bool_decide (t = Component "Form").

(** ** Repeated lookups *)

(** [n] lookups of the same identifier one after the other, each against
    the store the previous one left, with nothing else touching the store:
    the completions in order, and the store at the end. *)
Fixpoint repeated_lookups (n : nat) (args : DataFunctionArgs) (d : Db.Database)
    : list (Completion (Response LoaderData)) * Db.Database :=
  match n with
  | O => ([], d)
  | S n' =>
      let (r, d') := loader args d in
      let (rs, d'') := repeated_lookups n' args d' in
      (r :: rs, d'')
  end.

(** The failure of the loader: status 404 with the message of the source. *)
Definition NotFound : Response string :=
  {| status := 404; body := "Note not found" |}.

(** The lines of a text: the pieces between its newline characters. *)
Fixpoint lines_go (cur : string) (s : string) : list string :=
  match s with
  | EmptyString => [String.rev cur]
  | String c s' =>
      if Ascii.eqb c "010"%char
      then String.rev cur :: lines_go "" s'
      else lines_go (String c cur) s'
  end.

Definition lines (s : string) : list string := lines_go "" s.

(** ** Sample data *)

Module Sample.

(** The content of the spec's example: two lines, the second indented
    by two spaces. *)
Definition two_lines : string := "line1" +:+ String "010"%char "  line2".

Definition groceries : Db.Note :=
  {| Db.id := "d27a197e"; Db.title := "Groceries"; Db.content := two_lines;
     Db.other := {[ "createdAt" := "2023-05-01" ]} |}.

Definition koalas : Db.Note :=
  {| Db.id := "414f0c09"; Db.title := "Koalas"; Db.content := "They sleep.";
     Db.other := {[ "createdAt" := "2023-06-11" ]} |}.

(** [koalas] with the same identifier, title and content, and other
    stored fields changed. *)
Definition koalas_touched : Db.Note :=
  {| Db.id := "414f0c09"; Db.title := "Koalas"; Db.content := "They sleep.";
     Db.other := {[ "createdAt" := "2023-06-11"; "updatedAt" := "2024-01-02";
                    "owner" := "kody" ]} |}.

Definition store : Db.Database := {| Db.note := [groceries; koalas] |}.

Definition store_touched : Db.Database :=
  {| Db.note := [koalas_touched; groceries] |}.

(** Requests for [/users/kody/notes/<id>], and one whose path supplies
    no [noteId]. *)
Definition args_for (noteId : string) : DataFunctionArgs :=
  {| params := {[ "username" := "kody"; "noteId" := noteId ]} |}.

Definition args_without_id : DataFunctionArgs :=
  {| params := {[ "username" := "kody" ]} |}.

Definition context_of (n : NoteData) (e : RouteError) : RouteContext :=
  {| loaderData := {| note := n |}; routeError := e |}.

End Sample.

(** ** The sandwich route of the lesson text

    The lesson that accompanies the route shows, for a route
    [app/routes/sandwiches.$sandwichId.tsx], a loader that refuses a
    request with no user, requires the [sandwichId] parameter and reads a
    sandwich; the helper [requireUser]; and the same loader rewritten with
    that helper. *)

(** The truthiness of a value that is a string or [undefined], as
    [invariantResponse] tests it: [undefined] and the empty string are
    falsy.  A truthy value is handed on, now known to be a string. *)
Definition truthy (v : option string) : option string :=
  match v with
  | Some s => if decide (s = "") then None else Some s
  | None => None
  end.

Module Sandwiches.

(** What the lesson's code imports and the sources do not hold:
    [getUser] of [#app/utils/auth.server] and [getSandwich] of
    [#app/utils/sandwiches.server], asynchronous functions that may
    read or change the store and may throw; and the status
    [invariantResponse] gives a response when the call names none. *)
Class Collaborators (Request User Sandwich : Type) : Type := {
  getUser : Request → Handler (option User);
  getSandwich : string → Handler (option Sandwich);
  invariantStatus : Z;
}.

(** What the loader sends: [{ sandwich }]. *)
Record LoaderData (Sandwich : Type) : Type := mkLoaderData { sandwich : Sandwich }.
Arguments mkLoaderData {Sandwich} _.
Arguments sandwich {Sandwich} _.

Section Route.

Context {Request User Sandwich : Type}.
Context `{!Collaborators Request User Sandwich}.

(** The loader of the lesson, first version. *)
Definition loader (request : Request) (params : gmap string string)
    : Handler (Response (LoaderData Sandwich)) :=
  let* user := getUser request in
  match user with
  | None => hthrow {| status := 401; body := "Unauthorized" |}
  | Some _ =>
      let* sandwichId :=
        invariantResponse (truthy (params !! "sandwichId"))
          "sandwichId is required" invariantStatus in
      let* sandwich := getSandwich sandwichId in
      match sandwich with
      | None => hthrow {| status := 404; body := "Not Found" |}
      | Some s => hret (json {| sandwich := s |})
      end
  end.

(** [requireUser], the version that throws the 401 response. *)
Definition requireUser (request : Request) : Handler User :=
  let* user := getUser request in
  match user with
  | None => hthrow {| status := 401; body := "Unauthorized" |}
  | Some u => hret u
  end.


End Route.

End Sandwiches.

(** ** Sample collaborators *)

Module SandwichSample.

(** A request is the name its session carries, if any; a user is a name;
    a sandwich is its description.  [getUser] knows the session of kody,
    [getSandwich] knows one sandwich; neither touches the store.  The
    status of a bare [invariantResponse] is taken to be 400. *)
#[global] Instance collaborators
    : Sandwiches.Collaborators (option string) string string := {|
  Sandwiches.getUser request :=
    hret (match request with
          | Some name => if decide (name = "kody") then Some name else None
          | None => None
          end);
  Sandwiches.getSandwich sandwichId :=
    hret (if decide (sandwichId = "reuben") then Some "Reuben on rye" else None);
  Sandwiches.invariantStatus := 400;
|}.

Definition store : Db.Database := {| Db.note := [] |}.

End SandwichSample.

(** * Properties *)

(** ** The store *)

Section StoreLemmas.

Implicit Types (q : Db.Query) (n : Db.Note) (ns : list Db.Note).

Lemma matches_iff q n :
  Db.matches q n = true ↔ Db.where_id_equals q = Some (Db.id n).
Proof.
  unfold Db.matches, Db.equals.
  destruct (Db.where_id_equals q) as [e|]; [|by split].
  rewrite bool_decide_eq_true. split; congruence.
Qed.

Lemma first_match_Some q ns n :
  Db.first_match q ns = Some n → n ∈ ns ∧ Db.matches q n = true.
Proof.
  induction ns as [|m ns IH]; simpl; [done|].
  destruct (Db.matches q m) eqn:Hm.
  - intros [= <-]. split; [left | done].
  - intros H. destruct (IH H) as [Hin Hn]. split; [by right | done].
Qed.

Lemma first_match_None q ns :
  Db.first_match q ns = None ↔ ∀ n, n ∈ ns → Db.matches q n = false.
Proof.
  induction ns as [|m ns IH]; simpl.
  - split; [|done]. intros _ n Hn. by apply elem_of_nil in Hn.
  - destruct (Db.matches q m) eqn:Hm.
    + split; [done|]. intros H. specialize (H m (list_elem_of_here _ _)).
      congruence.
    + rewrite IH. split.
      * intros H n [->|Hn]%elem_of_cons; auto.
      * intros H n Hn. apply H. by right.
Qed.

(** With unique identifiers, the first match is the one stored note that
    carries the identifier. *)
Lemma first_match_unique q ns n :
  NoDup (Db.id <$> ns) → n ∈ ns → Db.matches q n = true →
  Db.first_match q ns = Some n.
Proof.
  intros Hnd Hin Hn. destruct (Db.first_match q ns) as [m|] eqn:Hfm.
  - apply first_match_Some in Hfm as [Hm_in Hm].
    apply matches_iff in Hn, Hm.
    assert (Db.id m = Db.id n) as Hid by congruence.
    f_equal. clear Hn Hm.
    induction ns as [|x ns IH]; [by apply elem_of_nil in Hin|].
    rewrite fmap_cons in Hnd. apply NoDup_cons in Hnd as [Hx Hnd].
    apply elem_of_cons in Hin as [->|Hin], Hm_in as [->|Hm_in]; auto.
    + exfalso. apply Hx. rewrite <- Hid. by apply list_elem_of_fmap_2.
    + exfalso. apply Hx. rewrite Hid. by apply list_elem_of_fmap_2.
  - rewrite first_match_None in Hfm. specialize (Hfm n Hin). congruence.
Qed.

End StoreLemmas.

(** ** The loader, run *)

(** The loader in one step: it leaves the store as it is, and completes by
    what the query finds. *)
Lemma loader_run args d :
  loader args d =
    (match Db.first_match {| Db.where_id_equals := params args !! "noteId" |}
             (Db.note d) with
     | Some n =>
         Return (json {| note := {| title := Db.title n;
                                    content := Db.content n |} |})
     | None => Throw NotFound
     end, d).
Proof.
  unfold loader, hbind, db_note_findFirst, invariantResponse.
  by destruct (Db.first_match _ _).
Qed.

(** ** Record lookup *)

Lemma absent_iff_no_match key d :
  Db.absent key d ↔
  Db.first_match {| Db.where_id_equals := key |} (Db.note d) = None.
Proof.
  rewrite first_match_None. unfold Db.absent.
  split; intros H n Hn; specialize (H n Hn).
  - destruct (Db.matches _ n) eqn:Hm; [|done].
    by apply matches_iff in Hm.
  - intros Heq. apply (matches_iff {| Db.where_id_equals := key |}) in Heq.
    congruence.
Qed.

(** The sample stores keep the invariant. *)
Lemma sample_store_unique_ids : Db.unique_ids Sample.store.
Proof.
  unfold Db.unique_ids. simpl. apply NoDup_cons. split.
  - intros [H|H]%elem_of_cons; [discriminate H|]. by apply elem_of_nil in H.
  - apply NoDup_singleton.
Defined.

Lemma sample_store_touched_unique_ids : Db.unique_ids Sample.store_touched.
Proof.
  unfold Db.unique_ids. simpl. apply NoDup_cons. split.
  - intros [H|H]%elem_of_cons; [discriminate H|]. by apply elem_of_nil in H.
  - apply NoDup_singleton.
Defined.

(** C1. For an identifier absent from the store the loader throws the
    not-found response, status 404 with the message "Note not found"; and
    this is its only failure: whenever the loader throws, what it throws is
    that response, and the identifier resolves to no record.  So the loader
    fails if and only if the identifier is absent. *)
Theorem loader_throws_404_iff_absent (args : DataFunctionArgs) (d : Db.Database) :
  (Db.absent (params args !! "noteId") d →
   (loader args d).1 = Throw {| status := 404; body := "Note not found" |}) ∧
  (∀ r, (loader args d).1 = Throw r →
        r = {| status := 404; body := "Note not found" |} ∧
        Db.absent (params args !! "noteId") d).
Proof.
  rewrite loader_run. simpl.
  destruct (Db.first_match _ _) as [n|] eqn:Hfm; split.
  - intros Habs%absent_iff_no_match. congruence.
  - intros r Hr. discriminate Hr.
  - done.
  - intros r [= <-]. split; [done|]. by apply absent_iff_no_match.
Qed.

Lemma loader_throws_404_iff_absent_witness :
  (loader (Sample.args_for "no-such-note") Sample.store).1
  = Throw {| status := 404; body := "Note not found" |}.
Proof.
  apply (loader_throws_404_iff_absent (Sample.args_for "no-such-note") Sample.store).
  intros n Hn.
  repeat (apply elem_of_cons in Hn as [->|Hn]); [by vm_compute..|].
  by apply elem_of_nil in Hn.
Defined.

(** C2. For an identifier present in the store, whose identifiers are
    unique, the loader returns, with status 200, a note whose title and
    content are, as strings, those of the stored record that carries the
    identifier. *)
Theorem loader_returns_stored_note (args : DataFunctionArgs) (d : Db.Database)
    (n : Db.Note) :
  Db.unique_ids d →
  n ∈ Db.note d →
  params args !! "noteId" = Some (Db.id n) →
  ∃ resp, (loader args d).1 = Return resp ∧
          status resp = 200 ∧
          title (note (body resp)) = Db.title n ∧
          content (note (body resp)) = Db.content n.
Proof.
  intros Hnd Hin Hkey. rewrite loader_run. simpl.
  rewrite (first_match_unique _ _ n Hnd Hin); [by eexists|].
  by apply matches_iff.
Qed.

Lemma loader_returns_stored_note_witness :
  ∃ resp, (loader (Sample.args_for "414f0c09") Sample.store).1 = Return resp ∧
          status resp = 200 ∧
          title (note (body resp)) = "Koalas" ∧
          content (note (body resp)) = "They sleep.".
Proof.
  apply (loader_returns_stored_note (Sample.args_for "414f0c09") Sample.store
           Sample.koalas).
  - apply sample_store_unique_ids.
  - right. left.
  - by vm_compute.
Defined.

(** C3. What a successful lookup sends is made of the title and the content
    of the found record and of nothing else: two stores in which the record
    that carries the identifier has the same identifier, title and content,
    whatever their other stored fields, give the same result, the response
    built from that title and that content alone. *)
Theorem loader_exposes_title_and_content_only (args : DataFunctionArgs)
    (d1 d2 : Db.Database) (n1 n2 : Db.Note) :
  Db.unique_ids d1 → Db.unique_ids d2 →
  n1 ∈ Db.note d1 → n2 ∈ Db.note d2 →
  params args !! "noteId" = Some (Db.id n1) →
  Db.id n1 = Db.id n2 →
  Db.title n1 = Db.title n2 →
  Db.content n1 = Db.content n2 →
  (loader args d1).1 = (loader args d2).1 ∧
  (loader args d1).1 =
    Return (json {| note := {| title := Db.title n1;
                               content := Db.content n1 |} |}).
Proof.
  intros Hnd1 Hnd2 Hin1 Hin2 Hkey Hid Ht Hc. rewrite !loader_run. simpl.
  rewrite (first_match_unique _ _ n1 Hnd1 Hin1) by by apply matches_iff.
  rewrite (first_match_unique _ _ n2 Hnd2 Hin2)
    by (apply matches_iff; simpl; congruence).
  by rewrite Ht, Hc.
Qed.

Lemma loader_exposes_title_and_content_only_witness :
  Db.other Sample.koalas ≠ Db.other Sample.koalas_touched ∧
  (loader (Sample.args_for "414f0c09") Sample.store).1
  = (loader (Sample.args_for "414f0c09") Sample.store_touched).1.
Proof.
  split.
  - intros H. apply (f_equal (λ m, m !! "owner")) in H. by vm_compute in H.
  - apply (loader_exposes_title_and_content_only
             (Sample.args_for "414f0c09") Sample.store Sample.store_touched
             Sample.koalas Sample.koalas_touched);
      [ apply sample_store_unique_ids | apply sample_store_touched_unique_ids
      | right; left | left | by vm_compute | reflexivity.. ].
Defined.

(** C7. The lookup only reads: whether the loader returns a note or throws,
    the store it leaves is the store it was given; no record is created,
    changed or deleted. *)
Theorem loader_leaves_store_unchanged (args : DataFunctionArgs) (d : Db.Database) :
  (loader args d).2 = d.
Proof. by rewrite loader_run. Qed.

(** C6. Lookups repeat: any number of lookups of the same identifier, one
    after the other with no write in between, all complete the way the
    first does, with the same note or with the same thrown response, and
    leave the store as it was. *)
Theorem repeated_lookups_identical (n : nat) (args : DataFunctionArgs)
    (d : Db.Database) :
  repeated_lookups n args d = (replicate n (loader args d).1, d).
Proof.
  induction n as [|n IH]; simpl; [done|].
  rewrite loader_run. simpl. by rewrite IH, loader_run.
Qed.

(** C9. When the path supplies no [noteId], the parameter reads as
    undefined, the query matches no stored note, and the loader throws the
    404 response, which is also what it does for any identifier that is
    absent from the store. *)
Theorem loader_without_noteId_throws_404 (args : DataFunctionArgs)
    (d : Db.Database) :
  params args !! "noteId" = None →
  Db.first_match {| Db.where_id_equals := params args !! "noteId" |}
    (Db.note d) = None ∧
  (loader args d).1 = Throw {| status := 404; body := "Note not found" |} ∧
  (∀ args', Db.absent (params args' !! "noteId") d →
            (loader args' d).1 = (loader args d).1).
Proof.
  intros Hnone.
  assert (Db.first_match {| Db.where_id_equals := params args !! "noteId" |}
            (Db.note d) = None) as Hfm.
  { rewrite Hnone. induction (Db.note d) as [|m ms IH]; [done|]. by simpl. }
  split; [done|]. rewrite loader_run, Hfm. split; [done|].
  intros args' Habs%absent_iff_no_match. by rewrite loader_run, Habs.
Qed.

Lemma loader_without_noteId_throws_404_witness :
  params Sample.args_without_id !! "noteId" = None ∧
  (loader Sample.args_without_id Sample.store).1
  = Throw {| status := 404; body := "Note not found" |}.
Proof.
  assert (params Sample.args_without_id !! "noteId" = None) as Hnone
    by by vm_compute.
  split; [exact Hnone|].
  exact (proj1 (proj2 (loader_without_noteId_throws_404
                         Sample.args_without_id Sample.store Hnone))).
Defined.

(** ** Presentation *)

Lemma string_app_empty_r (s : string) : s +:+ "" = s.
Proof.
  induction s as [|c s IH]; [done|].
  change (String c (s +:+ "") = String c s). by rewrite IH.
Qed.

(** The elements of interest in the view of [NoteRoute]: its one heading,
    its one paragraph, and its buttons, each under the types of its
    ancestors. *)
Lemma NoteRoute_headings toolbar ctx :
  findByType (Host "h2") (NoteRoute toolbar ctx) =
    [([Host "div"],
      Elem (Host "h2") {[ "className" := PStr "mb-2 pt-12 text-h2 lg:mb-6" ]}
        [Text (title (note (useLoaderData ctx)))])].
Proof. reflexivity. Qed.

Lemma NoteRoute_paragraphs toolbar ctx :
  findByType (Host "p") (NoteRoute toolbar ctx) =
    [([Host "div"; Host "div"],
      Elem (Host "p")
        {[ "className" := PStr "whitespace-break-spaces text-sm md:text-lg" ]}
        [Text (content (note (useLoaderData ctx)))])].
Proof. reflexivity. Qed.

Lemma NoteRoute_buttons toolbar ctx :
  findByType (Component "Button") (NoteRoute toolbar ctx) =
    [([Host "div"; Host "div"],
      Elem (Component "Button") {[ "variant" := PStr "destructive" ]}
        [Text "Delete"]);
     ([Host "div"; Host "div"],
      Elem (Component "Button") {[ "asChild" := PBool true ]}
        [Elem (Component "Link") {[ "to" := PStr "edit" ]} [Text "Edit"]])].
Proof. reflexivity. Qed.

(** C4. Given a resolved note, the view of [NoteRoute] has one heading,
    whose text is the note's title; one body paragraph, whose text is the
    note's content, character for character, and which carries the class
    that keeps white space; and two buttons, labelled "Delete" and "Edit".
    For the content "line1", newline, two spaces, "line2" the paragraph
    shows both lines, the second with its two leading spaces. *)
Theorem NoteRoute_shows_note (toolbar : string) (ctx : RouteContext) :
  let view := NoteRoute toolbar ctx in
  let n := note (useLoaderData ctx) in
  (λ p, textContent p.2) <$> findByType (Host "h2") view = [title n] ∧
  (λ p, textContent p.2) <$> findByType (Host "p") view = [content n] ∧
  Forall (λ p, "whitespace-break-spaces" ∈ classList p.2)
    (findByType (Host "p") view) ∧
  (λ p, textContent p.2) <$> findByType (Component "Button") view
    = ["Delete"; "Edit"] ∧
  (content n = Sample.two_lines →
   (λ p, lines (textContent p.2)) <$> findByType (Host "p") view
     = [["line1"; "  line2"]]).
Proof.
  intros view n. subst view.
  rewrite NoteRoute_headings, NoteRoute_paragraphs, NoteRoute_buttons.
  cbn [fmap list_fmap snd textContent foldr].
  rewrite !string_app_empty_r. fold n.
  split_and!; try done.
  - apply Forall_singleton. vm_compute. left.
  - intros ->. reflexivity.
Qed.

Lemma NoteRoute_shows_note_witness :
  (λ p, lines (textContent p.2)) <$>
    findByType (Host "p")
      (NoteRoute "toolbar"
         (Sample.context_of
            {| title := "Groceries"; content := Sample.two_lines |} NoError))
  = [["line1"; "  line2"]].
Proof.
  apply (NoteRoute_shows_note "toolbar"
           (Sample.context_of
              {| title := "Groceries"; content := Sample.two_lines |} NoError)).
  reflexivity.
Defined.

(** C8. The view is a function of the resolved note alone: [NoteRoute]
    reads nothing but the loader data and keeps no state between
    renderings, so two renderings whose notes have equal titles and equal
    contents give the same view, whatever else their contexts hold. *)
Theorem NoteRoute_pure (toolbar : string) (ctx1 ctx2 : RouteContext) :
  title (note (useLoaderData ctx1)) = title (note (useLoaderData ctx2)) →
  content (note (useLoaderData ctx1)) = content (note (useLoaderData ctx2)) →
  NoteRoute toolbar ctx1 = NoteRoute toolbar ctx2.
Proof. intros Ht Hc. unfold NoteRoute. by rewrite Ht, Hc. Qed.

Lemma NoteRoute_pure_witness :
  NoteRoute "toolbar"
    (Sample.context_of {| title := "Koalas"; content := "They sleep." |} NoError)
  = NoteRoute "toolbar"
      (Sample.context_of {| title := "Koalas"; content := "They sleep." |}
         (OtherError "stale")).
Proof. apply NoteRoute_pure; reflexivity. Defined.

(** C10. Of the two buttons of the view only "Edit" leads anywhere: it
    wraps the one link of the view, which goes to the relative path "edit".
    The "Delete" button has the single prop [variant]: no handler, no
    type, no form attribute; its only child is its label; and it stands in
    no form, as neither button has a form among its ancestors and the view
    has no form at all. *)
Theorem NoteRoute_only_edit_is_wired (toolbar : string) (ctx : RouteContext) :
  let view := NoteRoute toolbar ctx in
  let delete :=
    Elem (Component "Button") {[ "variant" := PStr "destructive" ]}
      [Text "Delete"] in
  let link := Elem (Component "Link") {[ "to" := PStr "edit" ]} [Text "Edit"] in
  let edit := Elem (Component "Button") {[ "asChild" := PBool true ]} [link] in
  snd <$> findByType (Component "Button") view = [delete; edit] ∧
  snd <$> findByType (Component "Link") view = [link] ∧
  elementProps link !! "to" = Some (PStr "edit") ∧
  dom (elementProps delete) = {[ "variant" ]} ∧
  elementProps delete !! "onClick" = None ∧
  descendants [] delete = [([], delete); ([Component "Button"], Text "Delete")] ∧
  Forall (λ p, existsb isForm p.1 = false)
    (findByType (Component "Button") view) ∧
  findByType (Host "form") view = [] ∧
  findByType (Component "Form") view = [].
Proof.
  intros view delete link edit. subst view.
  rewrite NoteRoute_buttons.
  split_and!; try reflexivity.
  by repeat constructor.
Qed.

(** ** The error boundary *)

(** C5. For a thrown response with status 404 the error boundary shows
    "Not Found", for one with status 401 it shows "Unauthorized", and for
    an error that is no thrown response, or for none at all, it shows the
    fallback "Something went wrong": three different views, with three
    different texts. *)
Theorem ErrorBoundary_messages_distinct (c404 c401 other : RouteContext)
    (r404 r401 : Response string) :
  useRouteError c404 = ErrorResponse r404 → status r404 = 404 →
  useRouteError c401 = ErrorResponse r401 → status r401 = 401 →
  isRouteErrorResponse (useRouteError other) = false →
  textContent (ErrorBoundary c404) = "Not Found" ∧
  textContent (ErrorBoundary c401) = "Unauthorized" ∧
  textContent (ErrorBoundary other) = "Something went wrong" ∧
  ErrorBoundary c404 ≠ ErrorBoundary c401 ∧
  ErrorBoundary c404 ≠ ErrorBoundary other ∧
  ErrorBoundary c401 ≠ ErrorBoundary other.
Proof.
  intros H404 Hs404 H401 Hs401 Hother. unfold ErrorBoundary.
  rewrite H404, H401, Hs404, Hs401. simpl.
  destruct (useRouteError other) as [r| |]; [discriminate Hother|..];
    split_and!; done.
Qed.

Lemma ErrorBoundary_messages_distinct_witness :
  let c404 := Sample.context_of {| title := ""; content := "" |}
                (ErrorResponse NotFound) in
  let c401 := Sample.context_of {| title := ""; content := "" |}
                (ErrorResponse {| status := 401; body := "Unauthorized" |}) in
  let other := Sample.context_of {| title := ""; content := "" |}
                 (OtherError "boom") in
  ErrorBoundary c404 ≠ ErrorBoundary c401 ∧
  ErrorBoundary c404 ≠ ErrorBoundary other ∧
  ErrorBoundary c401 ≠ ErrorBoundary other.
Proof.
  intros c404 c401 other.
  apply (ErrorBoundary_messages_distinct c404 c401 other
           NotFound {| status := 401; body := "Unauthorized" |});
    reflexivity.
Defined.

(** * Further properties of the route *)

(** ** The loader and what it is given *)

(** Whatever the loader returns comes from the store: a returned response
    has status 200 and carries the title and the content of a stored note
    whose identifier is the requested one.  No uniqueness of identifiers
    is needed for this. *)
Theorem loader_returns_only_stored_notes (args : DataFunctionArgs)
    (d : Db.Database) (resp : Response LoaderData) :
  (loader args d).1 = Return resp →
  status resp = 200 ∧
  ∃ n, n ∈ Db.note d ∧
       params args !! "noteId" = Some (Db.id n) ∧
       title (note (body resp)) = Db.title n ∧
       content (note (body resp)) = Db.content n.
Proof.
  rewrite loader_run. simpl.
  destruct (Db.first_match _ _) as [n|] eqn:Hfm; [|done].
  intros [= <-]. split; [done|]. exists n.
  apply first_match_Some in Hfm as [Hin Hm]. apply matches_iff in Hm.
  by split_and!.
Qed.

Lemma loader_returns_only_stored_notes_witness :
  ∃ n, n ∈ Db.note Sample.store ∧
       params (Sample.args_for "d27a197e") !! "noteId" = Some (Db.id n) ∧
       "Groceries" = Db.title n ∧ Sample.two_lines = Db.content n.
Proof.
  apply (loader_returns_only_stored_notes (Sample.args_for "d27a197e")
           Sample.store
           (json {| note := {| title := "Groceries";
                               content := Sample.two_lines |} |})).
  reflexivity.
Defined.

(** Of its parameters the loader reads [noteId] and nothing else: two
    requests that agree on [noteId] complete alike, whatever their other
    parameters; the [username] of the path, in particular, is not
    compared with anything. *)
Theorem loader_reads_only_noteId (args1 args2 : DataFunctionArgs)
    (d : Db.Database) :
  params args1 !! "noteId" = params args2 !! "noteId" →
  loader args1 d = loader args2 d.
Proof. intros Heq. by rewrite !loader_run, Heq. Qed.

Lemma loader_reads_only_noteId_witness :
  loader (Sample.args_for "414f0c09") Sample.store
  = loader {| params := {[ "username" := "hannah"; "noteId" := "414f0c09" ]} |}
      Sample.store.
Proof. apply loader_reads_only_noteId. reflexivity. Defined.

(** ** The loader and the error boundary *)

(** Every failure of the loader, caught and handed to the error boundary,
    is shown as "Not Found": the boundary goes by the status, and the
    message "Note not found" that the loader gave the response is not
    what is shown. *)
Theorem loader_failure_shown_as_Not_Found (args : DataFunctionArgs)
    (d : Db.Database) (r : Response string) (ctx : RouteContext) :
  (loader args d).1 = Throw r →
  useRouteError ctx = ErrorResponse r →
  ErrorBoundary ctx = Elem (Host "p") ∅ [Text "Not Found"].
Proof.
  rewrite loader_run. simpl.
  destruct (Db.first_match _ _) as [n|]; [done|].
  intros [= <-] Herr. unfold ErrorBoundary. by rewrite Herr.
Qed.

Lemma loader_failure_shown_as_Not_Found_witness :
  ErrorBoundary
    (Sample.context_of {| title := ""; content := "" |}
       (ErrorResponse {| status := 404; body := "Note not found" |}))
  = Elem (Host "p") ∅ [Text "Not Found"].
Proof.
  apply (loader_failure_shown_as_Not_Found
           (Sample.args_for "no-such-note") Sample.store
           {| status := 404; body := "Note not found" |});
    reflexivity.
Defined.

(** ** The loader and the view *)

(** From the store to the screen: for an identifier present in a store
    with unique identifiers, the loader returns, and a rendering that is
    given what it returned shows the stored title as its heading and the
    stored content as its paragraph, both unchanged. *)
Theorem stored_note_is_what_is_shown (args : DataFunctionArgs)
    (d : Db.Database) (n : Db.Note) :
  Db.unique_ids d →
  n ∈ Db.note d →
  params args !! "noteId" = Some (Db.id n) →
  ∃ resp, (loader args d).1 = Return resp ∧
    ∀ toolbar ctx, useLoaderData ctx = body resp →
      (λ p, textContent p.2) <$> findByType (Host "h2") (NoteRoute toolbar ctx)
        = [Db.title n] ∧
      (λ p, textContent p.2) <$> findByType (Host "p") (NoteRoute toolbar ctx)
        = [Db.content n].
Proof.
  intros Hnd Hin Hkey. rewrite loader_run.
  rewrite (first_match_unique _ _ n Hnd Hin) by by apply matches_iff.
  eexists. split; [reflexivity|]. intros toolbar ctx Hdata.
  rewrite NoteRoute_headings, NoteRoute_paragraphs, Hdata.
  cbn [fmap list_fmap snd textContent foldr body json note title content].
  by rewrite !string_app_empty_r.
Qed.

Lemma stored_note_is_what_is_shown_witness :
  ∃ resp,
    (loader (Sample.args_for "d27a197e") Sample.store).1 = Return resp ∧
    ∀ toolbar ctx, useLoaderData ctx = body resp →
      (λ p, textContent p.2) <$> findByType (Host "h2") (NoteRoute toolbar ctx)
        = ["Groceries"] ∧
      (λ p, textContent p.2) <$> findByType (Host "p") (NoteRoute toolbar ctx)
        = [Sample.two_lines].
Proof.
  apply (stored_note_is_what_is_shown (Sample.args_for "d27a197e")
           Sample.store Sample.groceries).
  - apply sample_store_unique_ids.
  - left.
  - reflexivity.
Defined.

(** ** The error boundary, case by case *)

(** The boundary always shows one paragraph with one of three texts, and
    the status alone decides which: "Not Found" exactly for a thrown
    response with status 404, "Unauthorized" exactly for one with status
    401, and "Something went wrong" in every other case, which includes
    thrown responses with any other status, such as 400 or 500. *)
Theorem ErrorBoundary_by_status (ctx : RouteContext) :
  (∃ text, ErrorBoundary ctx = Elem (Host "p") ∅ [Text text]) ∧
  (textContent (ErrorBoundary ctx) = "Not Found" ↔
   ∃ r, useRouteError ctx = ErrorResponse r ∧ status r = 404) ∧
  (textContent (ErrorBoundary ctx) = "Unauthorized" ↔
   ∃ r, useRouteError ctx = ErrorResponse r ∧ status r = 401) ∧
  (textContent (ErrorBoundary ctx) = "Something went wrong" ↔
   ∀ r, useRouteError ctx = ErrorResponse r → status r ≠ 404 ∧ status r ≠ 401).
Proof.
  unfold ErrorBoundary. destruct (useRouteError ctx) as [r| |].
  - destruct (decide (status r = 404)) as [H404|H404];
      [|destruct (decide (status r = 401)) as [H401|H401]].
    + rewrite (bool_decide_eq_true_2 _ H404).
      split_and!; [by eexists | split; [by exists r | done] | split | split];
        try done.
      * intros (r' & [= <-] & Hr'). lia.
      * intros H. destruct (H r eq_refl). lia.
    + rewrite (bool_decide_eq_false_2 _ H404), (bool_decide_eq_true_2 _ H401).
      split_and!; [by eexists | split | split; [by exists r | done] | split];
        try done.
      * intros (r' & [= <-] & Hr'). lia.
      * intros H. destruct (H r eq_refl). lia.
    + rewrite (bool_decide_eq_false_2 _ H404), (bool_decide_eq_false_2 _ H401).
      split_and!; [by eexists | split | split | split]; try done.
      * intros (r' & [= <-] & Hr'). lia.
      * intros (r' & [= <-] & Hr'). lia.
      * by intros _ r' [= <-].
  - split_and!; [by eexists | split | split | split]; try done.
    + by intros (r' & ? & _).
    + by intros (r' & ? & _).
  - split_and!; [by eexists | split | split | split]; try done.
    + by intros (r' & ? & _).
    + by intros (r' & ? & _).
Qed.

Lemma ErrorBoundary_by_status_witness :
  textContent
    (ErrorBoundary
       (Sample.context_of {| title := ""; content := "" |}
          (ErrorResponse {| status := 500; body := "Not Found" |})))
  = "Something went wrong".
Proof.
  apply (ErrorBoundary_by_status
           (Sample.context_of {| title := ""; content := "" |}
              (ErrorResponse {| status := 500; body := "Not Found" |}))).
  intros r [= <-]. by vm_compute.
Defined.

(** The boundary never shows what the server wrote in the response: two
    thrown responses with the same status give the same view, whatever
    their bodies and whatever else the contexts hold. *)
Theorem ErrorBoundary_ignores_body (ctx1 ctx2 : RouteContext)
    (r1 r2 : Response string) :
  useRouteError ctx1 = ErrorResponse r1 →
  useRouteError ctx2 = ErrorResponse r2 →
  status r1 = status r2 →
  ErrorBoundary ctx1 = ErrorBoundary ctx2.
Proof. intros H1 H2 Hs. unfold ErrorBoundary. by rewrite H1, H2, Hs. Qed.

Lemma ErrorBoundary_ignores_body_witness :
  ErrorBoundary
    (Sample.context_of {| title := ""; content := "" |}
       (ErrorResponse {| status := 404; body := "Note not found" |}))
  = ErrorBoundary
      (Sample.context_of {| title := "Koalas"; content := "" |}
         (ErrorResponse {| status := 404; body := "No sandwich here" |})).
Proof.
  apply (ErrorBoundary_ignores_body _ _
           {| status := 404; body := "Note not found" |}
           {| status := 404; body := "No sandwich here" |});
    reflexivity.
Defined.

(** ** The view determines the note *)

(** Two renderings give the same view only if their notes have the same
    title and the same content: the note can be read back from the view. *)
Theorem NoteRoute_injective (toolbar1 toolbar2 : string)
    (ctx1 ctx2 : RouteContext) :
  NoteRoute toolbar1 ctx1 = NoteRoute toolbar2 ctx2 →
  note (useLoaderData ctx1) = note (useLoaderData ctx2).
Proof.
  intros Hview.
  assert (findByType (Host "h2") (NoteRoute toolbar1 ctx1)
          = findByType (Host "h2") (NoteRoute toolbar2 ctx2)) as Hh
    by by rewrite Hview.
  assert (findByType (Host "p") (NoteRoute toolbar1 ctx1)
          = findByType (Host "p") (NoteRoute toolbar2 ctx2)) as Hp
    by by rewrite Hview.
  rewrite !NoteRoute_headings in Hh. rewrite !NoteRoute_paragraphs in Hp.
  injection Hh as Ht. injection Hp as Hc.
  destruct (note (useLoaderData ctx1)), (note (useLoaderData ctx2)).
  simpl in *. by subst.
Qed.

Lemma NoteRoute_injective_witness :
  note (useLoaderData
          (Sample.context_of {| title := "Koalas"; content := "They sleep." |}
             NoError))
  = note (useLoaderData
            (Sample.context_of {| title := "Koalas"; content := "They sleep." |}
               (OtherError "stale"))).
Proof. apply (NoteRoute_injective "toolbar" "toolbar"). reflexivity. Defined.

(** * Properties of the sandwich route *)

Lemma truthy_Some_iff (v : option string) (s : string) :
  truthy v = Some s ↔ v = Some s ∧ s ≠ "".
Proof.
  unfold truthy. destruct v as [s'|]; [|by split; [|intros [? _]]].
  destruct (decide (s' = "")) as [->|Hne].
  - split; [done|]. intros [[= <-] Hne]. done.
  - split; [by intros [= <-] | by intros [[= <-] _]].
Qed.

Lemma truthy_None_iff (v : option string) :
  truthy v = None ↔ v = None ∨ v = Some "".
Proof.
  unfold truthy. destruct v as [s'|]; [|by split; [left|]].
  destruct (decide (s' = "")) as [->|Hne].
  - split; [by right | done].
  - split; [done|]. intros [?|[= ?]]; done.
Qed.

Section SandwichRoute.

Context {Request User Sandwich : Type}.
Context `{collaborators : !Sandwiches.Collaborators Request User Sandwich}.

Implicit Types (request : Request) (params : gmap string string).
Implicit Types (d : Db.Database) (r : Response string).

(** The loader returns exactly when all three checks pass: [getUser]
    yields a user, the [sandwichId] parameter is present and not empty,
    and [getSandwich], run for that identifier on the store [getUser]
    left, yields a sandwich.  The response then has status 200 and
    carries that sandwich, and the store is the one [getSandwich] left. *)
Theorem sandwich_loader_returns_iff request params d
    (resp : Response (Sandwiches.LoaderData Sandwich)) (d2 : Db.Database) :
  Sandwiches.loader request params d = (Return resp, d2) ↔
  ∃ u sandwichId s d1,
    Sandwiches.getUser request d = (Return (Some u), d1) ∧
    params !! "sandwichId" = Some sandwichId ∧ sandwichId ≠ "" ∧
    Sandwiches.getSandwich sandwichId d1 = (Return (Some s), d2) ∧
    resp = {| status := 200; body := {| Sandwiches.sandwich := s |} |}.
Proof.
  unfold Sandwiches.loader, hbind, invariantResponse, hret, hthrow, json.
  split.
  - destruct (Sandwiches.getUser request d) as [[[u|]|r] d1]; try done.
    destruct (truthy (params !! "sandwichId")) as [sandwichId|] eqn:Hid;
      [|done].
    apply truthy_Some_iff in Hid as [Hid Hne].
    destruct (Sandwiches.getSandwich sandwichId d1) as [[[s|]|r] d2'] eqn:Hs;
      try done.
    intros [= <- <-]. by exists u, sandwichId, s, d1.
  - intros (u & sandwichId & s & d1 & -> & Hid & Hne & Hs & ->).
    rewrite (proj2 (truthy_Some_iff _ _) (conj Hid Hne)). by rewrite Hs.
Qed.

(** The failures of the loader, in the order of its checks.  It throws
    [r] and leaves the store [d2] exactly in one of five cases: [getUser]
    threw [r]; there is no user, and [r] is the 401 response
    "Unauthorized"; there is a user but [sandwichId] is missing or empty,
    and [r] is "sandwichId is required" with the status of a bare
    [invariantResponse]; [getSandwich] threw [r]; or there is no such
    sandwich, and [r] is the 404 response "Not Found".  In the first three
    cases [getSandwich] is not run: the store is as [getUser] left it. *)
Theorem sandwich_loader_throws_iff request params d r (d2 : Db.Database) :
  Sandwiches.loader request params d = (Throw r, d2) ↔
  Sandwiches.getUser request d = (Throw r, d2)
  ∨ (Sandwiches.getUser request d = (Return None, d2) ∧
     r = {| status := 401; body := "Unauthorized" |})
  ∨ (∃ u, Sandwiches.getUser request d = (Return (Some u), d2) ∧
          (params !! "sandwichId" = None ∨ params !! "sandwichId" = Some "") ∧
          r = {| status := Sandwiches.invariantStatus;
                 body := "sandwichId is required" |})
  ∨ (∃ u sandwichId d1,
       Sandwiches.getUser request d = (Return (Some u), d1) ∧
       params !! "sandwichId" = Some sandwichId ∧ sandwichId ≠ "" ∧
       (Sandwiches.getSandwich sandwichId d1 = (Throw r, d2)
        ∨ (Sandwiches.getSandwich sandwichId d1 = (Return None, d2) ∧
           r = {| status := 404; body := "Not Found" |}))).
Proof.
  unfold Sandwiches.loader, hbind, invariantResponse, hret, hthrow.
  destruct (Sandwiches.getUser request d) as [[[u|]|r0] d1].
  - destruct (truthy (params !! "sandwichId")) as [sandwichId|] eqn:Hid.
    + apply truthy_Some_iff in Hid as [Hid Hne].
      destruct (Sandwiches.getSandwich sandwichId d1) as [[[s|]|r1] d2'] eqn:Hs.
      * split; [done|]. intros [?|[[? _]|[(u' & [= <- <-] & [?|?] & _)|H]]];
          try congruence.
        destruct H as (u' & id' & d1' & [= <- <-] & Hid' & _ & Hs').
        assert (id' = sandwichId) as -> by congruence.
        rewrite Hs in Hs'. destruct Hs' as [Hs'|[Hs' ->]]; congruence.
      * split.
        -- intros [= <- <-]. right. right. right.
           exists u, sandwichId, d1. split_and!; try done. by right.
        -- intros [?|[[? _]|[(u' & [= <- <-] & [?|?] & _)|H]]];
             try congruence.
           destruct H as (u' & id' & d1' & [= <- <-] & Hid' & _ & Hs').
           assert (id' = sandwichId) as -> by congruence.
           rewrite Hs in Hs'. destruct Hs' as [Hs'|[Hs' ->]]; congruence.
      * split.
        -- intros [= <- <-]. right. right. right.
           exists u, sandwichId, d1. split_and!; try done. by left.
        -- intros [?|[[? _]|[(u' & [= <- <-] & [?|?] & _)|H]]];
             try congruence.
           destruct H as (u' & id' & d1' & [= <- <-] & Hid' & _ & Hs').
           assert (id' = sandwichId) as -> by congruence.
           rewrite Hs in Hs'. destruct Hs' as [Hs'|[Hs' ->]]; congruence.
    + apply truthy_None_iff in Hid. split.
      * intros [= <- <-]. right. right. left. by exists u.
      * intros [?|[[? _]|[(u' & [= <- <-] & _ & ->)|H]]]; try done.
        destruct H as (u' & id' & d1' & _ & Hid' & Hne & _).
        destruct Hid as [Hid|Hid]; congruence.
  - split.
    + intros [= <- <-]. right. by left.
    + intros [?|[[[= <-] ->]|[(u' & ? & _)|(u' & ? & ? & ? & _)]]]; done.
  - split.
    + intros [= <- <-]. by left.
    + intros [[= <- <-]|[[? _]|[(u' & ? & _)|(u' & ? & ? & ? & _)]]]; done.
Qed.

(** [requireUser] returns a user exactly when [getUser] yields one, and
    then that user: a caller that gets a user from it knows the request is
    logged in.  It throws exactly when [getUser] throws, with the same
    response, or yields no user, with the 401 response "Unauthorized".
    Either way the store is as [getUser] left it. *)
Theorem requireUser_returns_iff_logged_in request d (d1 : Db.Database) :
  (∀ u, Sandwiches.requireUser request d = (Return u, d1) ↔
        Sandwiches.getUser request d = (Return (Some u), d1)) ∧
  (∀ r, Sandwiches.requireUser request d = (Throw r, d1) ↔
        Sandwiches.getUser request d = (Throw r, d1)
        ∨ (Sandwiches.getUser request d = (Return None, d1) ∧
           r = {| status := 401; body := "Unauthorized" |})).
Proof.
  unfold Sandwiches.requireUser, hbind, hret, hthrow.
  destruct (Sandwiches.getUser request d) as [[[u0|]|r0] d0]; split.
  - intros u. split; intros [= <- <-]; done.
  - intros r. split; [done|]. intros [?|[? _]]; done.
  - intros u. split; done.
  - intros r. split.
    + intros [= <- <-]. by right.
    + intros [?|[[= <-] ->]]; done.
  - intros u. split; done.
  - intros r. split.
    + intros [= <- <-]. by left.
    + intros [[= <- <-]|[? _]]; done.
Qed.


(** An empty [sandwichId] counts as none: the loader treats parameters
    whose [sandwichId] is the empty string as it treats the same
    parameters without [sandwichId]. *)
Theorem sandwich_loader_empty_id_as_missing request params d :
  params !! "sandwichId" = Some "" →
  Sandwiches.loader request params d
  = Sandwiches.loader request (delete "sandwichId" params) d.
Proof.
  intros Hid. unfold Sandwiches.loader. by rewrite lookup_delete_eq, Hid.
Qed.

(** The failures of the loader at the error boundary.  When the loader
    throws and the boundary is given what it threw: with no user the
    boundary shows "Unauthorized"; with a user, an identifier and no such
    sandwich it shows "Not Found"; with a user and a missing or empty
    [sandwichId] it shows the fallback, "Something went wrong", provided
    the status of a bare [invariantResponse] is neither 404 nor 401. *)
Theorem sandwich_failures_at_the_boundary request params d r
    (d2 : Db.Database) (ctx : RouteContext) :
  Sandwiches.loader request params d = (Throw r, d2) →
  useRouteError ctx = ErrorResponse r →
  (Sandwiches.getUser request d = (Return None, d2) →
   textContent (ErrorBoundary ctx) = "Unauthorized") ∧
  (∀ u sandwichId d1,
     Sandwiches.getUser request d = (Return (Some u), d1) →
     params !! "sandwichId" = Some sandwichId → sandwichId ≠ "" →
     Sandwiches.getSandwich sandwichId d1 = (Return None, d2) →
     textContent (ErrorBoundary ctx) = "Not Found") ∧
  (∀ u, Sandwiches.getUser request d = (Return (Some u), d2) →
        params !! "sandwichId" = None ∨ params !! "sandwichId" = Some "" →
        Sandwiches.invariantStatus ≠ 404 →
        Sandwiches.invariantStatus ≠ 401 →
        textContent (ErrorBoundary ctx) = "Something went wrong").
Proof.
  unfold Sandwiches.loader, hbind, invariantResponse, hret, hthrow, ErrorBoundary.
  intros Hrun ->. split_and!.
  - intros Hu. rewrite Hu in Hrun. by injection Hrun as <-.
  - intros u sandwichId d1 Hu Hid Hne Hs. rewrite Hu in Hrun.
    rewrite (proj2 (truthy_Some_iff _ _) (conj Hid Hne)), Hs in Hrun.
    by injection Hrun as <-.
  - intros u Hu Hid H404 H401. rewrite Hu in Hrun.
    rewrite (proj2 (truthy_None_iff _) Hid) in Hrun.
    injection Hrun as <-. simpl.
    by rewrite (bool_decide_eq_false_2 _ H404), (bool_decide_eq_false_2 _ H401).
Qed.

End SandwichRoute.

(** ** The sandwich route on the sample collaborators *)

Lemma sandwich_loader_returns_iff_witness :
  Sandwiches.loader (Some "kody") {[ "sandwichId" := "reuben" ]}
    SandwichSample.store
  = (Return {| status := 200;
               body := {| Sandwiches.sandwich := "Reuben on rye" |} |},
     SandwichSample.store).
Proof.
  apply sandwich_loader_returns_iff.
  exists "kody", "reuben", "Reuben on rye", SandwichSample.store.
  split_and!; done.
Defined.

Lemma sandwich_loader_throws_iff_witness :
  Sandwiches.loader (Some "hannah") {[ "sandwichId" := "reuben" ]}
    SandwichSample.store
  = (Throw {| status := 401; body := "Unauthorized" |}, SandwichSample.store).
Proof.
  apply sandwich_loader_throws_iff. right. left. split; reflexivity.
Defined.

Lemma requireUser_returns_iff_logged_in_witness :
  Sandwiches.requireUser (Some "kody") SandwichSample.store
  = (Return "kody", SandwichSample.store).
Proof.
  apply (proj1 (requireUser_returns_iff_logged_in
                  (Some "kody") SandwichSample.store SandwichSample.store)).
  reflexivity.
Defined.

Lemma sandwich_loader_empty_id_as_missing_witness :
  Sandwiches.loader (Some "kody") {[ "sandwichId" := "" ]} SandwichSample.store
  = Sandwiches.loader (Some "kody") (delete "sandwichId" {[ "sandwichId" := "" ]})
      SandwichSample.store.
Proof. apply sandwich_loader_empty_id_as_missing. reflexivity. Defined.

Lemma sandwich_failures_at_the_boundary_witness :
  textContent
    (ErrorBoundary
       (Sample.context_of {| title := ""; content := "" |}
          (ErrorResponse {| status := 404; body := "Not Found" |})))
  = "Not Found".
Proof.
  assert (Sandwiches.loader (Some "kody") {[ "sandwichId" := "blt" ]}
            SandwichSample.store
          = (Throw {| status := 404; body := "Not Found" |},
             SandwichSample.store)) as Hrun by reflexivity.
  apply (proj1 (proj2 (sandwich_failures_at_the_boundary _ _ _ _ _
                         (Sample.context_of {| title := ""; content := "" |}
                            (ErrorResponse {| status := 404; body := "Not Found" |}))
                         Hrun eq_refl))
           "kody" "blt" SandwichSample.store);
    done.
Defined.
